(** * feross: a shallow embedding of [index.js]

    The module preconfigures an Express application: settings, a security
    header middleware, a request logger, a rate limiter, a static file
    middleware, a Rollbar bridge and a callback-to-promise adapter.

    JavaScript values are embedded as the inductive type [value]; the
    response object mutated by the middlewares is a record threaded through
    the handlers; [next] is a continuation; an exception is the [Throw]
    branch of [result]. *)

From Stdlib Require Import ZArith Lia.
From stdpp Require Import gmap strings list fin_maps pretty.

Open Scope Z_scope.

(** ** JavaScript values *)

Module Js.

(** The values the module handles. Numbers are the integers (every number
    the source computes is one); an object carries its own properties and
    whether its prototype chain reaches [Error.prototype]. *)
#[warnings="-register-all"]
Inductive value : Type :=
| VUndefined
| VNull
| VBool (b : bool)
| VNum (n : Z)
| VStr (s : string)
| VObj (isError : bool) (props : gmap string value).

Inductive exn : Type :=
| Error (message : string)
| TypeError (message : string).

(** The outcome of a call that may throw. *)
Inductive result (A : Type) : Type :=
| Ok (a : A)
| Throw (e : exn).
Arguments Ok {A} a.
Arguments Throw {A} e.

#[export] Instance result_ret : MRet result := fun A a => Ok a.

#[export] Instance result_bind : MBind result := fun A B k r =>
  match r with
  | Ok a => k a
  | Throw e => Throw e
  end.

(** [ToBoolean]: what [if (v)], [v ? a : b] and [!v] test. *)
Definition truthy (v : value) : bool :=
  match v with
  | VUndefined | VNull => false
  | VBool b => b
  | VNum n => negb (n =? 0)
  | VStr s => negb (String.eqb s EmptyString)
  | VObj _ _ => true
  end.

(** [v == null]: true of [undefined] and [null] only. *)
Definition eq_null (v : value) : bool :=
  match v with
  | VUndefined | VNull => true
  | _ => false
  end.

(** [v === n] for a number literal [n]: no coercion. *)
Definition strict_eq_num (v : value) (n : Z) : bool :=
  match v with
  | VNum m => m =? n
  | _ => false
  end.

(** [v instanceof Error]. *)
Definition instanceof_Error (v : value) : bool :=
  match v with
  | VObj isError _ => isError
  | _ => false
  end.

(** [v.name] for a name that no built-in prototype defines (such as
    [status]): a [TypeError] on [undefined] and [null], [undefined] on a
    primitive or when the object lacks the property. *)
Definition get (v : value) (name : string) : result value :=
  match v with
  | VUndefined =>
      Throw (TypeError ("Cannot read properties of undefined (reading '" +:+ name +:+ "')"))
  | VNull =>
      Throw (TypeError ("Cannot read properties of null (reading '" +:+ name +:+ "')"))
  | VObj _ props => Ok (default VUndefined (props !! name))
  | _ => Ok VUndefined
  end.

(** [args[i]] on an array: [undefined] past the end. *)
Definition index (args : list value) (i : nat) : value :=
  default VUndefined (args !! i).

(** The template literal [`${n}`] for an integer below 1e21: its decimal
    digits. *)
Definition num_to_string (n : Z) : string := pretty n.

End Js.

Import Js.

(** ** The Rollbar filter *)

(** [checkIgnore] of the configuration passed to [new Rollbar] (lines
    106-128). *)
Definition checkIgnore (isUncaught : value) (args : list value) : result bool :=
  let err := index args 0 in
  if truthy isUncaught then Ok false else
  s400 ← get err "status";
  if strict_eq_num s400 400 then Ok true else
  s403 ← get err "status";
  if strict_eq_num s403 403 then Ok true else
  s404 ← get err "status";
  if strict_eq_num s404 404 then Ok true else
  s412 ← get err "status";
  if strict_eq_num s412 412 then Ok true else
  s416 ← get err "status";
  if strict_eq_num s416 416 then Ok true else
  Ok false.

(** ** Requests, responses and middleware *)

(** The fields of an Express request that the module reads; [ip] is the
    source the rate limiter counts by. *)
Record request : Type := mkRequest {
  method : string;
  protocol : string;
  hostname : string;
  url : string;
  ip : string
}.

(** The response object a middleware mutates. *)
Record response : Type := mkResponse {
  statusCode : Z;
  headers : gmap string string;
  body : option string;
  finished : bool
}.

(** A line handed to the request logger: the format, whether it is written
    at once rather than when the response ends, and the request. *)
Record logLine : Type := mkLogLine {
  format : string;
  immediate : bool;
  logged : request
}.

(** What a middleware can touch while one request is served: the response,
    the clock, the log and the rate limiter's store. *)
Record world : Type := mkWorld {
  res : response;
  now : Z;
  stdout : list logLine;
  hits : gmap string Z;
  resetTime : Z
}.

Definition with_res (f : response -> response) (w : world) : world :=
  mkWorld (f (res w)) (now w) (stdout w) (hits w) (resetTime w).

(** [(req, res, next) => ...]: [next] is the rest of the chain. *)
Definition handler : Type := request -> world -> (world -> world) -> world.

(** *** The response methods of Express *)

(** Modelled from the spec: [res.header(name, value)] of Express, which is
    not part of this repository (section 6, "HTTP response headers set"): it
    sets the header and nothing else. *)
Definition header (name val : string) : world -> world :=
  with_res (fun r => mkResponse (statusCode r) (<[name := val]> (headers r))
                                (body r) (finished r)).

(** Modelled from the spec: [res.status(code)] of Express (section 6,
    "Rate-limit rejection response: status 503"). *)
Definition status (code : Z) : world -> world :=
  with_res (fun r => mkResponse code (headers r) (body r) (finished r)).

(** Modelled from the spec: [res.send(text)] of Express (section 6, "body
    [Blocked for too many requests]"): the body is written and the response
    ends. *)
Definition send (text : string) : world -> world :=
  with_res (fun r => mkResponse (statusCode r) (headers r) (Some text) true).

(** Modelled from the spec: [res.redirect(code, target)] of Express (section
    6, "HTTP redirect: status 301, [Location] header set to ..."): the
    status and the [Location] header are set and the response ends. *)
Definition redirect (code : Z) (target : string) : world -> world :=
  with_res (fun r => mkResponse code (<["Location" := target]> (headers r))
                                (body r) true).

(** *** The request logger *)

(** Modelled from the spec: the middleware [morgan(format, { immediate })]
    builds (section 4.2): it hands one line to the log and continues the
    chain. *)
Definition morgan (fmt : string) (imm : bool) : handler :=
  fun req w next =>
    next (mkWorld (res w) (now w) (stdout w ++ [mkLogLine fmt imm req])
                  (hits w) (resetTime w)).

(** *** The rate limiter *)

Record rateLimitOptions : Type := mkRateLimitOptions {
  windowMs : Z;
  max : Z;
  rl_headers : bool;
  rl_handler : handler
}.

(** Modelled from the spec: the store of the fixed-window limiter of
    [express-rate-limit] (glossary, "Fixed-window rate limiting"): when the
    current window has ended the counts are dropped and the next of the
    successive windows of [windowMs] milliseconds that contains [now]
    begins. *)
Definition tick (o : rateLimitOptions) (w : world) : world :=
  if resetTime w <=? now w
  then mkWorld (res w) (now w) (stdout w) ∅
               (resetTime w + windowMs o * ((now w - resetTime w) / windowMs o + 1))
  else w.

(** Modelled from the spec: the middleware [rateLimit(options)] builds
    (section 4.3 and glossary): it counts the request against its source in
    the current window, exposes the counters in response headers when
    [headers] is set, and once the count exceeds [max] hands the request to
    [handler] instead of continuing. *)
Definition rateLimit (o : rateLimitOptions) : handler :=
  fun req w next =>
    let w1 := tick o w in
    let current := default 0 (hits w1 !! ip req) + 1 in
    let w2 := mkWorld (res w1) (now w1) (stdout w1)
                      (<[ip req := current]> (hits w1)) (resetTime w1) in
    let w3 := if rl_headers o
              then header "X-RateLimit-Remaining"
                          (num_to_string (Z.max 0 (max o - current)))
                          (header "X-RateLimit-Limit" (num_to_string (max o)) w2)
              else w2 in
    if max o <? current then rl_handler o req w3 next else next w3.

(** *** The Rollbar client *)

(** The configuration object given to [new Rollbar]. *)
Record rollbar : Type := mkRollbar {
  accessToken : value;
  captureUncaught : bool;
  captureUnhandledRejections : bool;
  rb_checkIgnore : value -> list value -> result bool
}.

(** *** Middleware *)

(** What [app.use] receives or an entry point returns: an arrow function of
    this module, or a middleware built by one of the required packages. *)
Inductive middleware : Type :=
| Closure (h : handler)
| Morgan (fmt : string) (imm : bool)
| RateLimit (o : rateLimitOptions)
| ExpressStatic (root : string) (options : gmap string value)
| RollbarErrorHandler (client : rollbar).

(** The behaviour of a middleware, where this development models it: the
    file server and the Rollbar reporter are left opaque. *)
Definition run (m : middleware) : option handler :=
  match m with
  | Closure h => Some h
  | Morgan fmt imm => Some (morgan fmt imm)
  | RateLimit o => Some (rateLimit o)
  | ExpressStatic _ _ => None
  | RollbarErrorHandler _ => None
  end.

(** The chain Express runs for a request: each handler receives the rest of
    the chain as its [next]. *)
Fixpoint chain (hs : list handler) (req : request) (final : world -> world)
  : world -> world :=
  match hs with
  | [] => final
  | h :: rest => fun w => h req w (chain rest req final)
  end.

(** The Express application: its settings table and its middleware stack. *)
Record application : Type := mkApplication {
  settings : gmap string value;
  stack : list middleware
}.

(** [express()]: defaults of the framework are not modelled. *)
Definition express : application := mkApplication ∅ [].

Definition app_set (name : string) (v : value) (a : application) : application :=
  mkApplication (<[name := v]> (settings a)) (stack a).

Definition app_use (m : middleware) (a : application) : application :=
  mkApplication (settings a) (stack a ++ [m]).

(** The handler an application is for its server: the chain of its stack,
    where every middleware of the stack has a modelled behaviour; [final] is
    whatever the caller attaches after the stack. *)
Definition appHandler (a : application) : option handler :=
  hs ← mapM run (stack a);
  Some (fun req w final => chain hs req final w).

(** [http.createServer()] followed by [.on('request', app)]: the request
    listener is the [app] returned next to it (the same object, so later
    [app.use] calls are seen), and the server has not been started. *)
Record HttpServer : Type := mkHttpServer {
  listening : bool
}.

Record server : Type := mkServer {
  app : application;
  httpServer : HttpServer
}.

(** ** Process-wide state *)

(** What the module changes outside the objects it returns: the slot
    [globalThis.rollbar], [None] until it is assigned, and the table of named
    formats of [morgan]. *)
Record process : Type := mkProcess {
  rollbar_slot : option rollbar;
  formats : gmap string string
}.

(** [morgan.format(name, layout)]. *)
Definition morgan_format (name layout : string) (p : process) : process :=
  mkProcess (rollbar_slot p) (<[name := layout]> (formats p)).

Definition quote : string :=
  String (Ascii.Ascii false true false false false true false false) EmptyString.

(** The layout of lines 73-76. *)
Definition rateLimitLayout : string :=
  "Blocked for too many requests - :remote-addr - :remote-user [:date[clf]] "
  +:+ quote +:+ ":method :url HTTP/:http-version" +:+ quote
  +:+ " :status :res[content-length] "
  +:+ quote +:+ ":referrer" +:+ quote +:+ " "
  +:+ quote +:+ ":user-agent" +:+ quote.

(** ** [createServer] *)

(** The destructured argument of [createServer]; [maxRequestsPerSecond] is
    [None] when the caller leaves it out. *)
Record serverOptions : Type := mkServerOptions {
  isProd : value;
  host : string;
  maxRequestsPerSecond : option Z
}.

Definition missingIsProd : exn := Error "Missing `isProd` option".

(** Lines 34-38. *)
Definition useExpressConfig (isProd : value) (a : application) : application :=
  app_set "x-powered-by" (VBool false)
    (app_set "json spaces" (VNum (if truthy isProd then 0 else 2))
       (app_set "trust proxy" (VBool true) a)).

(** The arrow function of lines 41-60. *)
Definition securityHeaders (isProd : value) (host : string) (maxAgeHsts : Z)
  : handler :=
  fun req w next =>
    if truthy isProd && String.eqb (method req) "GET" &&
       (negb (String.eqb (protocol req) "https") ||
        negb (String.eqb (hostname req) host))
    then redirect 301 ("https://" +:+ host +:+ url req) w
    else
      let w1 := header "Strict-Transport-Security"
                  ("max-age=" +:+ num_to_string (maxAgeHsts / 1000) +:+
                   "; includeSubDomains; preload") w in
      let w2 := header "X-Content-Type-Options" "nosniff" w1 in
      next w2.

(** Lines 40-61. *)
Definition useSecurityHeaders (isProd : value) (host : string) (maxAgeHsts : Z)
  (a : application) : application :=
  app_use (Closure (securityHeaders isProd host maxAgeHsts)) a.

(** Lines 63-67. *)
Definition useLogger (isProd : value) (a : application) : application :=
  let logger := Morgan (if truthy isProd then "combined" else "dev")
                       (negb (truthy isProd)) in
  app_use logger a.

(** The [handler] option of lines 86-89: the block is logged with a
    continuation that does nothing, then the 503 is sent; [next] is not
    called. *)
Definition rateLimitHandler (isProd : value) : handler :=
  fun req w next =>
    let w1 := morgan "rate-limit" (negb (truthy isProd)) req w (fun w' => w') in
    send "Blocked for too many requests" (status 503 w1).

(** Lines 69-92: the application and the process after the call. *)
Definition useRateLimit (isProd : value) (maxRequestsPerSecond : Z)
  (a : application) (p : process) : application * process :=
  if negb (truthy isProd) then (a, p) else
  let p := morgan_format "rate-limit" rateLimitLayout p in
  let windowMs := 60 * 1000 in
  let max := 60 * maxRequestsPerSecond in
  let rateLimiter := RateLimit {|
    windowMs := windowMs;
    max := max;
    rl_headers := false;
    rl_handler := rateLimitHandler isProd
  |} in
  (app_use rateLimiter a, p).

(** Lines 8-32: the outcome of the call and the process after it. *)
Definition createServer (o : serverOptions) (p : process)
  : result server * process :=
  let isProd := isProd o in
  let host := host o in
  let maxRequestsPerSecond := default 5 (maxRequestsPerSecond o) in
  if eq_null isProd then (Throw missingIsProd, p) else
  let maxAgeHsts := if truthy isProd then 365 * 24 * 60 * 60 * 1000 else 0 in
  let app := express in
  let httpServer := mkHttpServer false in
  let app := useExpressConfig isProd app in
  let app := useSecurityHeaders isProd host maxAgeHsts app in
  let app := useLogger isProd app in
  let '(app, p) := useRateLimit isProd maxRequestsPerSecond app p in
  (Ok (mkServer app httpServer), p).

(** ** The Rollbar bridge *)

Record rollbarOptions : Type := mkRollbarOptions {
  rb_accessToken : value;
  rb_isProd : value
}.

(** Lines 95-130: the outcome of the call and the process after it. *)
Definition createRollbar (o : rollbarOptions) (p : process)
  : result unit * process :=
  if eq_null (rb_isProd o) then (Throw missingIsProd, p) else
  if negb (truthy (rb_isProd o)) then (Ok (), p) else
  (Ok (), mkProcess (Some {|
     accessToken := rb_accessToken o;
     captureUncaught := true;
     captureUnhandledRejections := true;
     rb_checkIgnore := checkIgnore
   |}) (formats p)).

(** Lines 132-135. *)
Definition getRollbarHandler (p : process) : middleware :=
  match rollbar_slot p with
  | Some client => RollbarErrorHandler client
  | None => Closure (fun req w next => next w)
  end.

(** ** [serveStatic] *)

(** [{ maxAge: m, ...opts }]: the properties of [opts] are copied over the
    literal's own, so on a shared key the one of [opts] stays. *)
Definition spread (literal opts : gmap string value) : gmap string value :=
  opts ∪ literal.

(** Lines 138-153; the second argument is an object, [isProd] is read from
    it and [opts] is what remains. *)
Definition serveStatic (path : string) (arg : gmap string value)
  : result middleware :=
  let isProd := default VUndefined (arg !! "isProd") in
  let opts := delete "isProd" arg in
  if eq_null isProd then Throw missingIsProd else
  let maxAgeStatic := if truthy isProd then 365 * 24 * 60 * 60 * 1000 else 0 in
  Ok (ExpressStatic path (spread {[ "maxAge" := VNum maxAgeStatic ]} opts)).

(** ** [runMiddleware] *)

(** The state of the promise [new Promise] returns. *)
Inductive promise : Type :=
| Pending
| Fulfilled (v : value)
| Rejected (reason : value).

(** [resolve] and [reject] settle a pending promise and do nothing to a
    settled one. Values have no methods, so no value is a thenable. *)
Definition resolve (v : value) (p : promise) : promise :=
  match p with
  | Pending => Fulfilled v
  | _ => p
  end.

Definition reject (v : value) (p : promise) : promise :=
  match p with
  | Pending => Rejected v
  | _ => p
  end.

(** A callback-style middleware, seen from the promise: what its calls of
    the completion callback do to it, and the value it throws, if it throws.
    A call of the callback without argument passes [VUndefined]. *)
Definition callbackStyle : Type :=
  request -> response -> (value -> promise -> promise) -> promise ->
  promise * option value.

(** Lines 155-165; an exception of the executor rejects the promise. *)
Definition runMiddleware (req : request) (r : response) (fn : callbackStyle)
  : promise :=
  let '(p, thrown) :=
    fn req r
       (fun result p =>
          if instanceof_Error result then reject result p else resolve result p)
       Pending in
  match thrown with
  | Some e => reject e p
  | None => p
  end.

(** ** Serving requests, and the vocabulary of the statements *)

(** The response of an exchange nothing has touched, and a world at time
    0 whose window ends at 60000. *)
Definition freshResponse : response := mkResponse 200 ∅ None false.

Definition freshWorld : world := mkWorld freshResponse 0 [] ∅ 60000.

(** The process before the module has been used. *)
Definition initialProcess : process := mkProcess None ∅.

(** A request arriving at time [t]: the clock reads [t], the response is
    fresh, the log and the limiter's store are those the previous requests
    left. *)
Definition arrive (t : Z) (w : world) : world :=
  mkWorld freshResponse t (stdout w) (hits w) (resetTime w).

(** Requests served one after the other by [h] with nothing attached after
    it; the response of each is collected. *)
Fixpoint serve (h : handler) (reqs : list (Z * request)) (w : world)
  : list response :=
  match reqs with
  | [] => []
  | (t, req) :: rest =>
      let w' := h req (arrive t w) (fun x => x) in
      res w' :: serve h rest w'
  end.

(** How many of [reqs] come from the source [a]. *)
Fixpoint sourceCount (a : string) (reqs : list (Z * request)) : Z :=
  match reqs with
  | [] => 0
  | (_, req) :: rest =>
      (if String.eqb (ip req) a then 1 else 0) + sourceCount a rest
  end.

(** The response the limiter's handler leaves on a fresh exchange. *)
Definition blocked : response :=
  mkResponse 503 ∅ (Some "Blocked for too many requests") true.

Definition counted (req : request) (w : world) : world :=
  mkWorld (res w) (now w) (stdout w)
          (<[ip req := default 0 (hits w !! ip req) + 1]> (hits w))
          (resetTime w).

(** The test of lines 43-44 for a boolean flag. *)
Definition mustRedirect (isProd : bool) (host : string) (req : request) : bool :=
  isProd && String.eqb (method req) "GET" &&
  (negb (String.eqb (protocol req) "https") ||
   negb (String.eqb (hostname req) host)).

(** The statuses lines 112-125 compare with. *)
Definition ignoredStatuses : list Z := [400; 403; 404; 412; 416].

(** A plain-http GET for the canonical host. *)
Definition sampleRequest : request :=
  mkRequest "GET" "http" "feross.org" "/about?x=1" "203.0.113.7".

Ltac same_count :=
  unfold id;
  match goal with
  | |- Some (if _ <? ?a then _ else _) = Some (if _ <? ?b then _ else _) =>
      replace a with b by lia; reflexivity
  end.

(** ** The variant configured from the environment *)

(** The second version of the module in [index.js] (lines 174-334): the flag
    is read once from [process.env.NODE_ENV] when the module is loaded, the
    entry points take no [isProd] and none of them throws. [checkIgnore],
    [getRollbarHandler] and [runMiddleware] are written as in the first
    version and are shared with it. *)
Module EnvVariant.

Section Env.

(** [process.env.NODE_ENV]: a string, or [None] when the variable is not
    set. *)
Variable NODE_ENV : option string.

(** Line 180. *)
Definition IS_PROD : bool :=
  match NODE_ENV with
  | Some s => String.eqb s "production"
  | None => false
  end.

(** Lines 184-186. *)
Definition MAX_AGE_HSTS : Z :=
  if IS_PROD then 365 * 24 * 60 * 60 * 1000 else 0.

(** Lines 190-192. *)
Definition MAX_AGE_STATIC : Z :=
  if IS_PROD then 365 * 24 * 60 * 60 * 1000 else 0.

(** Lines 209-213. *)
Definition useExpressConfig (a : application) : application :=
  app_set "x-powered-by" (VBool false)
    (app_set "json spaces" (VNum (if IS_PROD then 0 else 2))
       (app_set "trust proxy" (VBool true) a)).

(** The arrow function of lines 216-235. *)
Definition securityHeaders (host : string) : handler :=
  fun req w next =>
    if IS_PROD && String.eqb (method req) "GET" &&
       (negb (String.eqb (protocol req) "https") ||
        negb (String.eqb (hostname req) host))
    then redirect 301 ("https://" +:+ host +:+ url req) w
    else
      let w1 := header "Strict-Transport-Security"
                  ("max-age=" +:+ num_to_string (MAX_AGE_HSTS / 1000) +:+
                   "; includeSubDomains; preload") w in
      let w2 := header "X-Content-Type-Options" "nosniff" w1 in
      next w2.

(** Lines 215-236. *)
Definition useSecurityHeaders (host : string) (a : application) : application :=
  app_use (Closure (securityHeaders host)) a.

(** Lines 238-242. *)
Definition useLogger (a : application) : application :=
  let logger := Morgan (if IS_PROD then "combined" else "dev") (negb IS_PROD) in
  app_use logger a.

(** The [handler] option of lines 261-264. *)
Definition rateLimitHandler : handler :=
  fun req w next =>
    let w1 := morgan "rate-limit" (negb IS_PROD) req w (fun w' => w') in
    send "Blocked for too many requests" (status 503 w1).

(** Lines 244-267. *)
Definition useRateLimit (maxRequestsPerSecond : Z) (a : application)
  (p : process) : application * process :=
  if negb IS_PROD then (a, p) else
  let p := morgan_format "rate-limit" rateLimitLayout p in
  let windowMs := 60 * 1000 in
  let max := 60 * maxRequestsPerSecond in
  let rateLimiter := RateLimit {|
    windowMs := windowMs;
    max := max;
    rl_headers := false;
    rl_handler := rateLimitHandler
  |} in
  (app_use rateLimiter a, p).

(** Lines 194-207: only [host] and [maxRequestsPerSecond] are read from the
    argument. *)
Definition createServer (o : serverOptions) (p : process) : server * process :=
  let host := host o in
  let maxRequestsPerSecond := default 5 (maxRequestsPerSecond o) in
  let app := express in
  let httpServer := mkHttpServer false in
  let app := useExpressConfig app in
  let app := useSecurityHeaders host app in
  let app := useLogger app in
  let '(app, p) := useRateLimit maxRequestsPerSecond app p in
  (mkServer app httpServer, p).

(** Lines 270-301: only [accessToken] is read from the argument. *)
Definition createRollbar (o : rollbarOptions) (p : process) : process :=
  if negb IS_PROD then p else
  mkProcess (Some {|
     accessToken := rb_accessToken o;
     captureUncaught := true;
     captureUnhandledRejections := true;
     rb_checkIgnore := checkIgnore
   |}) (formats p).

(** Lines 321-326: the whole of [opts] is spread, an [isProd] in it
    included. *)
Definition serveStatic (path : string) (opts : gmap string value) : middleware :=
  ExpressStatic path (spread {[ "maxAge" := VNum MAX_AGE_STATIC ]} opts).

End Env.

End EnvVariant.

(** ** Sequences of calls *)

(** [createRollbar] called with each of [calls] in turn, whatever each call
    returns or throws. *)
Definition createRollbars (calls : list rollbarOptions) (p : process) : process :=
  foldl (fun p o => snd (createRollbar o p)) p calls.

(** The calls of [calls] that assign the slot. *)
Definition assigning (calls : list rollbarOptions) : list rollbarOptions :=
  filter (fun o => truthy (rb_isProd o) = true) calls.

(** The request a client sends when it follows the redirect of [req] to the
    canonical host [host]. *)
Definition followRedirect (host : string) (req : request) : request :=
  mkRequest "GET" "https" host (url req) (ip req).

(** [fn] seen through the values it passes to its callback, in order, and
    what it throws. *)
Definition calling (vs : list value) (thrown : option value) : callbackStyle :=
  fun _ _ done p => (foldl (fun p v => done v p) p vs, thrown).

(** The promise the callback of [runMiddleware] leaves when first called
    with [v]. *)
Definition settled (v : value) : promise :=
  if instanceof_Error v then Rejected v else Fulfilled v.

(** The access log line of the logger [useLogger] installs. *)
Definition accessLine (b : bool) (req : request) : logLine :=
  mkLogLine (if b then "combined" else "dev") (negb b) req.

(** The value of the header of lines 50-53. *)
Definition hsts (b : bool) : string :=
  if b then "max-age=31536000; includeSubDomains; preload"
  else "max-age=0; includeSubDomains; preload".

(** * Properties *)

(** ** The security header middleware *)

Lemma mustRedirect_spec isProd host req :
  mustRedirect isProd host req = true <->
  isProd = true /\ method req = "GET" /\
  (protocol req <> "https" \/ hostname req <> host).
Proof.
  unfold mustRedirect.
  rewrite !andb_true_iff, orb_true_iff, !negb_true_iff.
  rewrite String.eqb_eq, !String.eqb_neq. tauto.
Qed.

(** What the first middleware of the stack does, for a boolean flag. *)
Lemma securityHeaders_redirect b host age req w next :
  mustRedirect b host req = true ->
  securityHeaders (VBool b) host age req w next =
  redirect 301 ("https://" +:+ host +:+ url req) w.
Proof.
  unfold securityHeaders, mustRedirect. cbn [truthy]. by intros ->.
Qed.

Lemma securityHeaders_continue b host age req w next :
  mustRedirect b host req = false ->
  securityHeaders (VBool b) host age req w next =
  next (header "X-Content-Type-Options" "nosniff"
          (header "Strict-Transport-Security"
             ("max-age=" +:+ num_to_string (age / 1000) +:+
              "; includeSubDomains; preload") w)).
Proof.
  unfold securityHeaders, mustRedirect. cbn [truthy]. by intros ->.
Qed.

Lemma createServer_stack b h m p :
  createServer (mkServerOptions (VBool b) h m) p =
  (Ok (mkServer
         (mkApplication
            {[ "x-powered-by" := VBool false;
               "json spaces" := VNum (if b then 0 else 2);
               "trust proxy" := VBool true ]}
            (Closure (securityHeaders (VBool b) h
                        (if b then 365 * 24 * 60 * 60 * 1000 else 0))
             :: Morgan (if b then "combined" else "dev") (negb b)
             :: (if b
                 then [RateLimit (mkRateLimitOptions (60 * 1000) (60 * default 5 m)
                                    false (rateLimitHandler (VBool b)))]
                 else [])))
         (mkHttpServer false)),
   if b then morgan_format "rate-limit" rateLimitLayout p else p).
Proof. by destruct b. Qed.

Lemma mustRedirect_false isProd host req :
  ~ (isProd = true /\ method req = "GET" /\
     (protocol req <> "https" \/ hostname req <> host)) ->
  mustRedirect isProd host req = false.
Proof.
  intros Hn. destruct (mustRedirect isProd host req) eqn:E; [|done].
  by apply mustRedirect_spec in E.
Qed.

(** C1. The middleware [createServer] installs first, with canonical host
    [H] and a boolean flag [b]: a GET request in production whose protocol
    is not https or whose hostname is not [H] is answered by a 301 redirect
    to ["https://" ++ H ++ url], whatever [next] is (it is not called); every
    other request, and every request when [b] is false, is passed to [next]
    with the status, the [Location] header and the open response as they
    were. *)
Theorem securityHeaders_redirects_iff_prod_get_noncanonical
  (b : bool) (H : string) (m : option Z) (p : process) :
  exists s p' h,
    createServer (mkServerOptions (VBool b) H m) p = (Ok s, p') /\
    stack (app s) !! 0%nat = Some (Closure h) /\
    forall req w next,
      (b = true /\ method req = "GET" /\
       (protocol req <> "https" \/ hostname req <> H) ->
       h req w next = redirect 301 ("https://" +:+ H +:+ url req) w /\
       statusCode (res (h req w next)) = 301 /\
       headers (res (h req w next)) !! "Location" =
         Some ("https://" +:+ H +:+ url req) /\
       finished (res (h req w next)) = true) /\
      (~ (b = true /\ method req = "GET" /\
          (protocol req <> "https" \/ hostname req <> H)) ->
       exists w',
         h req w next = next w' /\
         statusCode (res w') = statusCode (res w) /\
         headers (res w') !! "Location" = headers (res w) !! "Location" /\
         body (res w') = body (res w) /\
         finished (res w') = finished (res w)).
Proof.
  eexists _, _, _. split; [apply createServer_stack|]. split; [reflexivity|].
  intros req w next. split.
  - intros Hc. apply mustRedirect_spec in Hc.
    rewrite (securityHeaders_redirect _ _ _ _ _ _ Hc).
    repeat split. cbn. by rewrite lookup_insert_eq.
  - intros Hn. apply mustRedirect_false in Hn.
    rewrite (securityHeaders_continue _ _ _ _ _ _ Hn).
    eexists. split; [reflexivity|]. cbn.
    repeat split. by rewrite !lookup_insert_ne.
Qed.

Lemma securityHeaders_redirects_witness :
  exists s p' h,
    createServer (mkServerOptions (VBool true) "feross.org" None) initialProcess =
      (Ok s, p') /\
    stack (app s) !! 0%nat = Some (Closure h) /\
    h sampleRequest freshWorld (fun w => w) =
      redirect 301 "https://feross.org/about?x=1" freshWorld.
Proof.
  destruct (securityHeaders_redirects_iff_prod_get_noncanonical
              true "feross.org" None initialProcess)
    as (s & p' & h & Hs & Hh & Hall).
  exists s, p', h. split; [exact Hs|]. split; [exact Hh|].
  apply (Hall sampleRequest freshWorld (fun w => w)).
  split; [reflexivity|]. split; [reflexivity|]. left. discriminate.
Defined.

(** C2. A request the first middleware does not redirect reaches [next] with
    [Strict-Transport-Security] set to [max-age=0; includeSubDomains;
    preload] when the flag is false and to [max-age=31536000;
    includeSubDomains; preload] when it is true (the millisecond constant
    divided by 1000), and with [X-Content-Type-Options] set to [nosniff]. *)
Theorem securityHeaders_sets_hsts_and_nosniff
  (b : bool) (H : string) (m : option Z) (p : process) :
  exists s p' h,
    createServer (mkServerOptions (VBool b) H m) p = (Ok s, p') /\
    stack (app s) !! 0%nat = Some (Closure h) /\
    365 * 24 * 60 * 60 * 1000 / 1000 = 31536000 /\
    forall req w next,
      ~ (b = true /\ method req = "GET" /\
         (protocol req <> "https" \/ hostname req <> H)) ->
      exists w',
        h req w next = next w' /\
        headers (res w') !! "Strict-Transport-Security" =
          Some (if b then "max-age=31536000; includeSubDomains; preload"
                else "max-age=0; includeSubDomains; preload") /\
        headers (res w') !! "X-Content-Type-Options" = Some "nosniff".
Proof.
  eexists _, _, _. split; [apply createServer_stack|]. split; [reflexivity|].
  split; [reflexivity|].
  intros req w next Hn. apply mustRedirect_false in Hn.
  rewrite (securityHeaders_continue _ _ _ _ _ _ Hn).
  eexists. split; [reflexivity|]. cbn.
  rewrite lookup_insert_ne by done. rewrite !lookup_insert_eq.
  split; [|done]. by destruct b.
Qed.

Lemma securityHeaders_sets_hsts_witness :
  exists s p' h w',
    createServer (mkServerOptions (VBool true) "feross.org" None) initialProcess =
      (Ok s, p') /\
    stack (app s) !! 0%nat = Some (Closure h) /\
    h (mkRequest "POST" "http" "feross.org" "/api" "203.0.113.7")
      freshWorld (fun w => w) = w' /\
    headers (res w') !! "Strict-Transport-Security" =
      Some "max-age=31536000; includeSubDomains; preload" /\
    headers (res w') !! "X-Content-Type-Options" = Some "nosniff".
Proof.
  destruct (securityHeaders_sets_hsts_and_nosniff true "feross.org" None
              initialProcess)
    as (s & p' & h & Hs & Hh & _ & Hall).
  destruct (Hall (mkRequest "POST" "http" "feross.org" "/api" "203.0.113.7")
              freshWorld (fun w => w)) as (w' & Hrun & Hsts & Hns).
  { intros (_ & Hm & _). discriminate Hm. }
  exists s, p', h, w'. by repeat split.
Defined.

(** ** The required flag *)

(** C3. With [isProd] absent ([undefined], [null], or for [serveStatic] not
    a key of the argument) each of [createServer], [createRollbar] and
    [serveStatic] throws: no server and no middleware is produced, and the
    slot [globalThis.rollbar] and the formats of [morgan] are as before; with
    [isProd] false each returns normally. *)
Theorem missing_isProd_throws_false_accepted
  (v : value) (H : string) (m : option Z) (tok : value) (p : process)
  (path : string) (arg : gmap string value)
  (Harg : default VUndefined (arg !! "isProd") = v) :
  (v = VUndefined \/ v = VNull ->
   createServer (mkServerOptions v H m) p = (Throw missingIsProd, p) /\
   createRollbar (mkRollbarOptions tok v) p = (Throw missingIsProd, p) /\
   serveStatic path arg = Throw missingIsProd) /\
  (v = VBool false ->
   (exists s, createServer (mkServerOptions v H m) p = (Ok s, p)) /\
   createRollbar (mkRollbarOptions tok v) p = (Ok (), p) /\
   (exists mw, serveStatic path arg = Ok mw)).
Proof.
  split.
  - intros Hv. unfold createServer, createRollbar, serveStatic. cbn.
    rewrite Harg. by destruct Hv as [-> | ->].
  - intros ->. unfold createServer, createRollbar, serveStatic. cbn.
    rewrite Harg. cbn. eauto.
Qed.

Lemma missing_isProd_throws_witness :
  (createServer (mkServerOptions VUndefined "feross.org" None) initialProcess =
     (Throw missingIsProd, initialProcess) /\
   createRollbar (mkRollbarOptions (VStr "token") VUndefined) initialProcess =
     (Throw missingIsProd, initialProcess) /\
   serveStatic "static" {[ "maxAge" := VNum 5 ]} = Throw missingIsProd) /\
  ((exists s, createServer (mkServerOptions (VBool false) "feross.org" None)
                initialProcess = (Ok s, initialProcess)) /\
   createRollbar (mkRollbarOptions (VStr "token") (VBool false)) initialProcess =
     (Ok (), initialProcess) /\
   (exists mw, serveStatic "static" {[ "isProd" := VBool false ]} = Ok mw)).
Proof.
  split.
  - apply (missing_isProd_throws_false_accepted VUndefined "feross.org" None
             (VStr "token") initialProcess "static" {[ "maxAge" := VNum 5 ]}).
    + vm_compute. reflexivity.
    + left. reflexivity.
  - apply (missing_isProd_throws_false_accepted (VBool false) "feross.org" None
             (VStr "token") initialProcess "static"
             {[ "isProd" := VBool false ]}).
    + vm_compute. reflexivity.
    + reflexivity.
Defined.

(** ** The application settings *)

(** C9. The application [createServer] returns has [trust proxy] set to
    true, [x-powered-by] set to false, and [json spaces] set to 0 when the
    flag is true and to 2 otherwise. *)
Theorem createServer_express_settings
  (b : bool) (H : string) (m : option Z) (p : process) :
  exists s p',
    createServer (mkServerOptions (VBool b) H m) p = (Ok s, p') /\
    settings (app s) !! "trust proxy" = Some (VBool true) /\
    settings (app s) !! "x-powered-by" = Some (VBool false) /\
    settings (app s) !! "json spaces" = Some (VNum (if b then 0 else 2)).
Proof.
  eexists _, _. split; [apply createServer_stack|]. cbn.
  by destruct b.
Qed.

(** ** The static file middleware *)

Lemma spread_lookup (literal opts : gmap string value) (k : string) :
  spread literal opts !! k =
  match opts !! k with
  | Some v => Some v
  | None => literal !! k
  end.
Proof.
  unfold spread. rewrite lookup_union. by destruct (opts !! k), (literal !! k).
Qed.

(** C5. [serveStatic path arg] with a boolean [isProd] in [arg] returns the
    static middleware for [path] whose options hold, under [maxAge], the
    caller's value when [arg] has a [maxAge] and otherwise 0 when the flag is
    false and 31536000000 when it is true; [isProd] itself is not passed on
    and every other option of the caller is. *)
Theorem serveStatic_maxAge_default_then_overrides
  (path : string) (arg : gmap string value) (b : bool)
  (Hflag : arg !! "isProd" = Some (VBool b)) :
  exists o,
    serveStatic path arg = Ok (ExpressStatic path o) /\
    o !! "maxAge" =
      Some (match arg !! "maxAge" with
            | Some v => v
            | None => VNum (if b then 31536000000 else 0)
            end) /\
    o !! "isProd" = None /\
    forall k, k <> "maxAge" -> k <> "isProd" -> o !! k = arg !! k.
Proof.
  unfold serveStatic. rewrite Hflag. cbn [default eq_null truthy].
  eexists. split; [reflexivity|]. split; [|split].
  - rewrite spread_lookup, lookup_delete_ne by done.
    destruct (arg !! "maxAge"); [done|].
    rewrite lookup_singleton_eq. by destruct b.
  - rewrite spread_lookup, lookup_delete_eq. by rewrite lookup_singleton_ne.
  - intros k Hk1 Hk2.
    rewrite spread_lookup, lookup_delete_ne by done.
    destruct (arg !! k); [done|]. by rewrite lookup_singleton_ne.
Qed.

Lemma serveStatic_maxAge_witness :
  exists o p,
    serveStatic "static" {[ "isProd" := VBool true; "etag" := VBool false ]} =
      Ok (ExpressStatic "static" o) /\
    o !! "maxAge" = Some (VNum 31536000000) /\
    serveStatic "static" {[ "isProd" := VBool true; "maxAge" := VNum 1000 ]} =
      Ok (ExpressStatic "static" p) /\
    p !! "maxAge" = Some (VNum 1000).
Proof.
  destruct (serveStatic_maxAge_default_then_overrides "static"
              {[ "isProd" := VBool true; "etag" := VBool false ]} true)
    as (o & Ho & Hage & _); [vm_compute; reflexivity|].
  destruct (serveStatic_maxAge_default_then_overrides "static"
              {[ "isProd" := VBool true; "maxAge" := VNum 1000 ]} true)
    as (p & Hp & Hage' & _); [vm_compute; reflexivity|].
  exists o, p. split; [exact Ho|]. split; [exact Hage|].
  split; [exact Hp|]. exact Hage'.
Defined.

(** ** The error filter *)

Lemma checkIgnore_uncaught isUncaught args :
  truthy isUncaught = true -> checkIgnore isUncaught args = Ok false.
Proof. unfold checkIgnore. by intros ->. Qed.

Lemma checkIgnore_reads_status isUncaught args :
  truthy isUncaught = false ->
  checkIgnore isUncaught args =
  st ← get (index args 0) "status";
  Ok (strict_eq_num st 400 || strict_eq_num st 403 || strict_eq_num st 404 ||
      strict_eq_num st 412 || strict_eq_num st 416).
Proof.
  unfold checkIgnore. intros ->.
  destruct (get (index args 0) "status") as [st|e]; [|done]. cbn.
  by repeat (destruct (strict_eq_num st _); [done|]).
Qed.

Lemma strict_eq_num_true v n : strict_eq_num v n = true <-> v = VNum n.
Proof.
  destruct v; cbn; try (split; [discriminate|intros [=]]).
  rewrite Z.eqb_eq. split; [by intros ->|by intros [= ->]].
Qed.

(** C6. [checkIgnore isUncaught args] is false whenever [isUncaught] holds;
    when it does not and [args[0]] has a [status], the result is true if the
    status is one of the numbers 400, 403, 404, 412, 416 and false for every
    other status. *)
Theorem checkIgnore_suppresses_listed_statuses
  (isUncaught : value) (args : list value) :
  (truthy isUncaught = true -> checkIgnore isUncaught args = Ok false) /\
  (truthy isUncaught = false ->
   forall st, get (index args 0) "status" = Ok st ->
     ((exists n, n ∈ ignoredStatuses /\ st = VNum n) ->
      checkIgnore isUncaught args = Ok true) /\
     (~ (exists n, n ∈ ignoredStatuses /\ st = VNum n) ->
      checkIgnore isUncaught args = Ok false)).
Proof.
  split; [apply checkIgnore_uncaught|].
  intros Hu st Hst. rewrite (checkIgnore_reads_status _ _ Hu), Hst. cbn.
  split.
  - intros (n & Hn & ->). f_equal. unfold ignoredStatuses in Hn.
    rewrite !elem_of_cons, elem_of_nil in Hn.
    destruct Hn as [->|[->|[->|[->|[->|[]]]]]]; reflexivity.
  - intros Hno. f_equal. apply not_true_is_false. intros Ht.
    rewrite !orb_true_iff, !strict_eq_num_true in Ht.
    apply Hno. unfold ignoredStatuses.
    destruct Ht as [[[[->| ->]| ->]| ->]| ->]; eexists; (split; [|reflexivity]);
      rewrite !elem_of_cons; tauto.
Qed.

Lemma checkIgnore_suppresses_witness :
  checkIgnore (VBool true) [VObj true {[ "status" := VNum 404 ]}] = Ok false /\
  checkIgnore (VBool false) [VObj true {[ "status" := VNum 404 ]}] = Ok true /\
  checkIgnore (VBool false) [VObj true {[ "status" := VNum 500 ]}] = Ok false.
Proof.
  split; [|split].
  - apply (checkIgnore_suppresses_listed_statuses (VBool true)); reflexivity.
  - apply (checkIgnore_suppresses_listed_statuses (VBool false)
             [VObj true {[ "status" := VNum 404 ]}]) with (st := VNum 404).
    + reflexivity.
    + vm_compute. reflexivity.
    + exists 404. split; [|reflexivity]. unfold ignoredStatuses.
      rewrite !elem_of_cons. right; right; left; reflexivity.
  - apply (checkIgnore_suppresses_listed_statuses (VBool false)
             [VObj true {[ "status" := VNum 500 ]}]) with (st := VNum 500).
    + reflexivity.
    + vm_compute. reflexivity.
    + intros (n & Hn & [= <-]). unfold ignoredStatuses in Hn.
      rewrite !elem_of_cons, elem_of_nil in Hn.
      destruct Hn as [?|[?|[?|[?|[?|[]]]]]]; discriminate.
Defined.

(** C10. When [isUncaught] does not hold, [checkIgnore] reads [status] of
    [args[0]] before anything else: it returns a boolean exactly when
    [args[0]] is neither [undefined] nor [null], and on an empty [args] it
    throws a [TypeError]. *)
Theorem checkIgnore_throws_without_error_argument
  (isUncaught : value) (args : list value)
  (Hcaught : truthy isUncaught = false) :
  checkIgnore isUncaught args =
    (st ← get (index args 0) "status";
     Ok (strict_eq_num st 400 || strict_eq_num st 403 || strict_eq_num st 404 ||
         strict_eq_num st 412 || strict_eq_num st 416)) /\
  ((exists b, checkIgnore isUncaught args = Ok b) <->
   index args 0 <> VUndefined /\ index args 0 <> VNull) /\
  checkIgnore isUncaught [] =
    Throw (TypeError "Cannot read properties of undefined (reading 'status')").
Proof.
  split; [by apply checkIgnore_reads_status|]. split.
  - rewrite (checkIgnore_reads_status _ _ Hcaught).
    destruct (index args 0); cbn; split;
      try (intros [b [=]]); try (intros [? ?]; congruence);
      try (intros _; split; discriminate); eauto.
  - by rewrite (checkIgnore_reads_status _ _ Hcaught).
Qed.

Lemma checkIgnore_throws_witness :
  checkIgnore (VBool false) [] =
    Throw (TypeError "Cannot read properties of undefined (reading 'status')").
Proof.
  apply (checkIgnore_throws_without_error_argument (VBool false) []).
  reflexivity.
Defined.

(** ** The promise adapter *)

(** C7. When [fn] calls its completion callback with [v], the promise
    [runMiddleware] returns is rejected with [v] if [v] is an instance of
    [Error], and otherwise fulfilled with [v], whether [v] is truthy, falsy
    or [undefined] (a call without argument); what [fn] throws afterwards,
    if anything, does not change it. *)
Theorem runMiddleware_rejects_errors_resolves_others
  (req : request) (r : response) (fn : callbackStyle) (v : value)
  (thrown : option value)
  (Hcalls : forall done p, fn req r done p = (done v p, thrown)) :
  (instanceof_Error v = true -> runMiddleware req r fn = Rejected v) /\
  (instanceof_Error v = false -> runMiddleware req r fn = Fulfilled v) /\
  (v = VUndefined -> runMiddleware req r fn = Fulfilled VUndefined).
Proof.
  unfold runMiddleware. rewrite Hcalls.
  split; [|split]; intros ->; by destruct thrown.
Qed.

Lemma runMiddleware_witness :
  runMiddleware sampleRequest freshResponse
    (fun _ _ done p => (done (VObj true {[ "status" := VNum 500 ]}) p, None)) =
    Rejected (VObj true {[ "status" := VNum 500 ]}) /\
  runMiddleware sampleRequest freshResponse
    (fun _ _ done p => (done (VBool false) p, None)) =
    Fulfilled (VBool false) /\
  runMiddleware sampleRequest freshResponse
    (fun _ _ done p => (done VUndefined p, None)) =
    Fulfilled VUndefined.
Proof.
  split; [|split].
  - apply (runMiddleware_rejects_errors_resolves_others sampleRequest freshResponse
             (fun _ _ done p => (done (VObj true {[ "status" := VNum 500 ]}) p, None))
             (VObj true {[ "status" := VNum 500 ]}) None); reflexivity.
  - apply (runMiddleware_rejects_errors_resolves_others sampleRequest freshResponse
             (fun _ _ done p => (done (VBool false) p, None)) (VBool false) None);
      reflexivity.
  - apply (runMiddleware_rejects_errors_resolves_others sampleRequest freshResponse
             (fun _ _ done p => (done VUndefined p, None)) VUndefined None);
      reflexivity.
Defined.

(** A middleware that returns without calling back leaves the promise
    pending. *)
Lemma runMiddleware_pending req r (fn : callbackStyle) :
  (forall done p, fn req r done p = (p, None)) ->
  runMiddleware req r fn = Pending.
Proof. intros Hsilent. unfold runMiddleware. by rewrite Hsilent. Qed.

(** ** The Rollbar accessor *)

(** C8. With the slot unset, [getRollbarHandler] returns an arrow function
    that hands the world it received, unchanged, to [next]; the slot stays
    as it was when [createRollbar] is called with a false flag; with the
    slot set, the client's error handler is returned. *)
Theorem getRollbarHandler_passthrough_when_unset (g : process) :
  (rollbar_slot g = None ->
   exists h, getRollbarHandler g = Closure h /\
             forall req w next, h req w next = next w) /\
  (forall tok, createRollbar (mkRollbarOptions tok (VBool false)) g = (Ok (), g)) /\
  (forall client, rollbar_slot g = Some client ->
                  getRollbarHandler g = RollbarErrorHandler client).
Proof.
  unfold getRollbarHandler. split; [|split].
  - intros ->. by eexists.
  - done.
  - by intros client ->.
Qed.

Lemma getRollbarHandler_passthrough_witness :
  exists h,
    getRollbarHandler
      (snd (createRollbar (mkRollbarOptions (VStr "token") (VBool false))
              initialProcess)) = Closure h /\
    h sampleRequest freshWorld (status 404) = status 404 freshWorld.
Proof.
  destruct (getRollbarHandler_passthrough_when_unset initialProcess)
    as (Hnone & Hfalse & _).
  rewrite Hfalse. destruct (Hnone eq_refl) as (h & Hh & Hpass).
  exists h. split; [exact Hh|]. apply Hpass.
Defined.

(** ** The rate limiter *)

Section Limiter.

(** A limiter configured as [useRateLimit] does: counter headers off, and
    the module's own handler. *)
Variable o : rateLimitOptions.
Variable isProd : value.
Hypothesis Hheaders : rl_headers o = false.
Hypothesis Hhandler : rl_handler o = rateLimitHandler isProd.

Lemma tick_in_window w : now w < resetTime w -> tick o w = w.
Proof.
  intros Hlt. unfold tick.
  destruct (resetTime w <=? now w) eqn:E; [|done].
  apply Z.leb_le in E. lia.
Qed.

(** Once the window has ended the counts are gone and the clock is inside
    the window that replaces it, a whole number of windows later. *)
Lemma tick_new_window w :
  0 < windowMs o -> resetTime w <= now w ->
  hits (tick o w) = ∅ /\
  now (tick o w) < resetTime (tick o w) /\
  (windowMs o | resetTime (tick o w) - resetTime w).
Proof.
  intros Hpos Hle. unfold tick.
  destruct (resetTime w <=? now w) eqn:E; [|apply Z.leb_gt in E; lia].
  cbn. split; [done|]. split.
  - pose proof (Z.mul_succ_div_gt (now w - resetTime w) (windowMs o) Hpos).
    lia.
  - exists ((now w - resetTime w) / windowMs o + 1). lia.
Qed.

Lemma rateLimit_in_window req w next :
  now w < resetTime w ->
  rateLimit o req w next =
  if max o <? default 0 (hits w !! ip req) + 1
  then rl_handler o req (counted req w) next
  else next (counted req w).
Proof.
  intros Hlt. unfold rateLimit. rewrite (tick_in_window _ Hlt), Hheaders.
  reflexivity.
Qed.

Lemma rateLimit_arrival req t w :
  t < resetTime w ->
  let w' := rateLimit o req (arrive t w) (fun x => x) in
  resetTime w' = resetTime w /\
  hits w' = <[ip req := default 0 (hits w !! ip req) + 1]> (hits w) /\
  res w' = if max o <? default 0 (hits w !! ip req) + 1
           then blocked else freshResponse.
Proof.
  intros Hlt. cbn zeta.
  rewrite rateLimit_in_window by done. rewrite Hhandler. cbn.
  by destruct (max o <? _).
Qed.

(** The response to the request at position [i] of a run within one window:
    blocked exactly when the count of its source, with this request, is
    above [max]. *)
Lemma serve_rateLimit_lookup reqs :
  forall w,
    Forall (fun x => x.1 < resetTime w) reqs ->
    forall (i : nat) t req,
      reqs !! i = Some (t, req) ->
      serve (rateLimit o) reqs w !! i =
      Some (if max o <? default 0 (hits w !! ip req) +
                        sourceCount (ip req) (take (S i) reqs)
            then blocked else freshResponse).
Proof.
  induction reqs as [|[t0 r0] rest IH]; intros w Hwin i t req Hi; [done|].
  apply Forall_cons in Hwin as [Ht0 Hrest]. cbn in Ht0.
  destruct (rateLimit_arrival r0 t0 w Ht0) as (Hreset & Hhits & Hres).
  destruct i as [|j].
  - injection Hi as -> ->. cbn [serve lookup list_lookup].
    rewrite Hres. cbn [take sourceCount]. rewrite String.eqb_refl.
    by rewrite Z.add_0_r.
  - cbn [serve].
    rewrite lookup_cons in Hi. rewrite lookup_cons. lazy beta iota in Hi |- *.
    rewrite (IH _ (ltac:(by rewrite Hreset)) j t req Hi).
    rewrite Hhits.
    change (take (S (S j)) ((t0, r0) :: rest))
      with ((t0, r0) :: take (S j) rest).
    cbn [sourceCount].
    destruct (String.eqb (ip r0) (ip req)) eqn:E.
    + apply String.eqb_eq in E. rewrite E, lookup_insert_eq. cbn [default].
      same_count.
    + apply String.eqb_neq in E. rewrite lookup_insert_ne by done.
      same_count.
Qed.

End Limiter.

Lemma serve_dev_never_blocked H age fmt imm reqs :
  forall w,
    Forall (fun r => statusCode r <> 503 /\
                     body r <> Some "Blocked for too many requests")
      (serve (fun req w final =>
                chain [securityHeaders (VBool false) H age; morgan fmt imm]
                      req final w) reqs w).
Proof.
  induction reqs as [|[t req] rest IH]; intros w; [constructor|].
  cbn [serve]. constructor; [|apply IH].
  cbn. split; discriminate.
Qed.

(** C4. Outside production the stack [createServer] builds holds no rate
    limiter and answers no request itself, so no response it leaves is the
    limiter's 503. In production the third middleware is a limiter with a
    window of 60000 ms, a ceiling of 60 times [maxRequestsPerSecond] (5 when
    left out) and the counter headers off. Within a window, a request that
    brings its source's count to the ceiling or below is passed to [next]
    with the response untouched; one that brings it above is answered with
    503 and [Blocked for too many requests], whatever [next] is, with the
    headers as they were. Hence of the requests served within one window
    that opened with no count for a source, the one whose rank among that
    source's requests exceeds the ceiling is blocked and one at or below it
    is not. *)
Theorem rateLimit_blocks_above_ceiling_only_in_prod
  (H : string) (m : option Z) (p : process) :
  (exists s h,
     createServer (mkServerOptions (VBool false) H m) p = (Ok s, p) /\
     (forall o, RateLimit o ∉ stack (app s)) /\
     appHandler (app s) = Some h /\
     forall reqs w,
       Forall (fun r => statusCode r <> 503 /\
                        body r <> Some "Blocked for too many requests")
         (serve h reqs w)) /\
  (exists s p' o,
     createServer (mkServerOptions (VBool true) H m) p = (Ok s, p') /\
     stack (app s) !! 2%nat = Some (RateLimit o) /\
     windowMs o = 60000 /\
     max o = 60 * default 5 m /\
     rl_headers o = false /\
     (forall req w,
        now w < resetTime w ->
        (default 0 (hits w !! ip req) + 1 <= max o ->
         forall next, rateLimit o req w next = next (counted req w)) /\
        (max o < default 0 (hits w !! ip req) + 1 ->
         exists out,
           (forall next, rateLimit o req w next = out) /\
           statusCode (res out) = 503 /\
           body (res out) = Some "Blocked for too many requests" /\
           finished (res out) = true /\
           headers (res out) = headers (res w))) /\
     (forall reqs w,
        Forall (fun x => x.1 < resetTime w) reqs ->
        forall (i : nat) t req,
          reqs !! i = Some (t, req) ->
          hits w !! ip req = None ->
          serve (rateLimit o) reqs w !! i =
          Some (if 60 * default 5 m <? sourceCount (ip req) (take (S i) reqs)
                then blocked else freshResponse))).
Proof.
  split.
  - eexists _, _. split; [apply createServer_stack|].
    cbn [app stack]. split; [|split; [reflexivity|]].
    + intros o Hin. rewrite !elem_of_cons, elem_of_nil in Hin.
      destruct Hin as [Hx|[Hx|[]]]; discriminate Hx.
    + intros reqs w. apply serve_dev_never_blocked.
  - eexists _, _, _. split; [apply createServer_stack|].
    cbn [app stack]. split; [reflexivity|].
    cbn [windowMs max rl_headers]. do 3 (split; [reflexivity|]). split.
    + intros req w Hwin. split.
      * intros Hle next. rewrite rateLimit_in_window by done.
        cbn [max rl_handler].
        destruct (_ <? _) eqn:E; [|done]. apply Z.ltb_lt in E. lia.
      * intros Hgt.
        exists (rateLimitHandler (VBool true) req (counted req w) (fun x => x)).
        split.
        -- intros next. rewrite rateLimit_in_window by done.
           cbn [max rl_handler].
           destruct (_ <? _) eqn:E; [reflexivity|]. apply Z.ltb_ge in E. lia.
        -- by cbn.
    + intros reqs w Hwin i t req Hi Hnone.
      rewrite (serve_rateLimit_lookup
                 (mkRateLimitOptions (60 * 1000) (60 * default 5 m) false
                    (rateLimitHandler (VBool true)))
                 (VBool true) eq_refl eq_refl reqs w Hwin i t req Hi).
      rewrite Hnone. cbn [max default]. same_count.
Qed.

Lemma rateLimit_blocks_witness :
  exists s p' o,
    createServer (mkServerOptions (VBool true) "feross.org" None) initialProcess =
      (Ok s, p') /\
    stack (app s) !! 2%nat = Some (RateLimit o) /\
    max o = 300 /\
    serve (rateLimit o) (replicate 301 (0, sampleRequest)) freshWorld !! 299%nat =
      Some freshResponse /\
    serve (rateLimit o) (replicate 301 (0, sampleRequest)) freshWorld !! 300%nat =
      Some blocked.
Proof.
  destruct (rateLimit_blocks_above_ceiling_only_in_prod "feross.org" None
              initialProcess)
    as (_ & s & p' & o & Hs & Ho & _ & Hmax & _ & _ & Hseq).
  exists s, p', o. split; [exact Hs|]. split; [exact Ho|]. split; [exact Hmax|].
  assert (Hwin : Forall (fun x : Z * request => x.1 < resetTime freshWorld)
                   (replicate 301 (0, sampleRequest))).
  { apply Forall_replicate. cbn. lia. }
  split.
  - rewrite (Hseq _ _ Hwin 299%nat 0 sampleRequest); [|by vm_compute..].
    vm_compute. reflexivity.
  - rewrite (Hseq _ _ Hwin 300%nat 0 sampleRequest); [|by vm_compute..].
    vm_compute. reflexivity.
Defined.

(** * Further properties *)

(** ** The whole stack *)

Lemma createServer_handler b H m p :
  exists s p',
    createServer (mkServerOptions (VBool b) H m) p = (Ok s, p') /\
    appHandler (app s) =
      Some (fun req w final =>
              chain (securityHeaders (VBool b) H
                       (if b then 365 * 24 * 60 * 60 * 1000 else 0)
                     :: morgan (if b then "combined" else "dev") (negb b)
                     :: (if b
                         then [rateLimit
                                 (mkRateLimitOptions (60 * 1000) (60 * default 5 m)
                                    false (rateLimitHandler (VBool b)))]
                         else []))
                    req final w) /\
    p' = (if b then morgan_format "rate-limit" rateLimitLayout p else p).
Proof.
  eexists _, _. split; [apply createServer_stack|]. by destruct b.
Qed.

(** X1. Outside production the stack answers nothing: every request,
    whatever its method, protocol and host, reaches what follows the stack
    with the two security headers set (zero max-age), one [dev] line handed
    to the log at once, and the status, body, open state and limiter store
    as they were. *)
Theorem dev_stack_forwards_every_request (H : string) (m : option Z) (p : process) :
  exists s h,
    createServer (mkServerOptions (VBool false) H m) p = (Ok s, p) /\
    appHandler (app s) = Some h /\
    forall req w final,
      exists w',
        h req w final = final w' /\
        headers (res w') =
          <["X-Content-Type-Options" := "nosniff"]>
            (<["Strict-Transport-Security" := hsts false]> (headers (res w))) /\
        stdout w' = stdout w ++ [accessLine false req] /\
        statusCode (res w') = statusCode (res w) /\
        body (res w') = body (res w) /\
        finished (res w') = finished (res w) /\
        hits w' = hits w /\
        resetTime w' = resetTime w.
Proof.
  destruct (createServer_handler false H m p) as (s & p' & Hs & Hh & ->).
  eexists s, _. split; [exact Hs|]. split; [exact Hh|].
  intros req w final. eexists. split; [reflexivity|]. by cbn.
Qed.

(** X2. In production a redirected request stops at the first middleware:
    it is not handed to the logger and it is not counted by the rate
    limiter. *)
Theorem redirected_request_not_logged_not_counted
  (H : string) (m : option Z) (p : process) :
  exists s p' h,
    createServer (mkServerOptions (VBool true) H m) p = (Ok s, p') /\
    appHandler (app s) = Some h /\
    forall req w final,
      method req = "GET" ->
      protocol req <> "https" \/ hostname req <> H ->
      h req w final = redirect 301 ("https://" +:+ H +:+ url req) w /\
      stdout (h req w final) = stdout w /\
      hits (h req w final) = hits w /\
      resetTime (h req w final) = resetTime w.
Proof.
  destruct (createServer_handler true H m p) as (s & p' & Hs & Hh & _).
  eexists s, p', _. split; [exact Hs|]. split; [exact Hh|].
  intros req w final Hget Hnc. cbn [chain].
  rewrite securityHeaders_redirect; [done|].
  apply mustRedirect_spec. tauto.
Qed.

Lemma redirected_request_witness :
  exists s p' h,
    createServer (mkServerOptions (VBool true) "feross.org" None) initialProcess =
      (Ok s, p') /\
    appHandler (app s) = Some h /\
    stdout (h sampleRequest freshWorld (fun w => w)) = [] /\
    hits (h sampleRequest freshWorld (fun w => w)) = ∅.
Proof.
  destruct (redirected_request_not_logged_not_counted "feross.org" None
              initialProcess) as (s & p' & h & Hs & Hh & Hall).
  exists s, p', h. split; [exact Hs|]. split; [exact Hh|].
  destruct (Hall sampleRequest freshWorld (fun w => w)) as (_ & Hout & Hhits & _).
  - reflexivity.
  - left. discriminate.
  - split; [exact Hout | exact Hhits].
Defined.

(** X3. In production a request that is not redirected and keeps its source
    at or below the ceiling within the window reaches what follows the
    stack with the two security headers set (one year max-age), one
    [combined] line handed to the log, the source's count raised by one and
    the status, body and open state as they were. *)
Theorem prod_stack_forwards_below_ceiling
  (H : string) (m : option Z) (p : process) :
  exists s p' h,
    createServer (mkServerOptions (VBool true) H m) p = (Ok s, p') /\
    appHandler (app s) = Some h /\
    forall req w final,
      ~ (method req = "GET" /\
         (protocol req <> "https" \/ hostname req <> H)) ->
      now w < resetTime w ->
      default 0 (hits w !! ip req) + 1 <= 60 * default 5 m ->
      exists w',
        h req w final = final w' /\
        headers (res w') =
          <["X-Content-Type-Options" := "nosniff"]>
            (<["Strict-Transport-Security" := hsts true]> (headers (res w))) /\
        stdout w' = stdout w ++ [accessLine true req] /\
        hits w' = <[ip req := default 0 (hits w !! ip req) + 1]> (hits w) /\
        statusCode (res w') = statusCode (res w) /\
        body (res w') = body (res w) /\
        finished (res w') = finished (res w).
Proof.
  destruct (createServer_handler true H m p) as (s & p' & Hs & Hh & _).
  eexists s, p', _. split; [exact Hs|]. split; [exact Hh|].
  intros req w final Hn Hwin Hle. cbn [chain].
  rewrite securityHeaders_continue by (apply mustRedirect_false; tauto).
  unfold morgan. rewrite rateLimit_in_window by done.
  cbn [max rl_handler now resetTime hits header with_res].
  destruct (_ <? _) eqn:E; [apply Z.ltb_lt in E; lia|].
  eexists. split; [reflexivity|]. by cbn.
Qed.

Lemma prod_stack_forwards_witness :
  exists s p' h w',
    createServer (mkServerOptions (VBool true) "feross.org" None) initialProcess =
      (Ok s, p') /\
    appHandler (app s) = Some h /\
    h (followRedirect "feross.org" sampleRequest) freshWorld (fun w => w) = w' /\
    stdout w' = [accessLine true (followRedirect "feross.org" sampleRequest)] /\
    hits w' !! "203.0.113.7" = Some 1 /\
    statusCode (res w') = 200.
Proof.
  destruct (prod_stack_forwards_below_ceiling "feross.org" None initialProcess)
    as (s & p' & h & Hs & Hh & Hall).
  destruct (Hall (followRedirect "feross.org" sampleRequest) freshWorld
              (fun w => w))
    as (w' & Hrun & _ & Hout & Hhits & Hstatus & _).
  - intros (_ & [Hp | Hp]); apply Hp; reflexivity.
  - cbn. lia.
  - vm_compute. discriminate.
  - exists s, p', h, w'. split; [exact Hs|]. split; [exact Hh|].
    split; [exact Hrun|]. split; [exact Hout|].
    split; [rewrite Hhits; vm_compute; reflexivity | exact Hstatus].
Defined.



(** ** Process-wide effects of [createServer] *)



(** ** Flags that are not booleans *)

Lemma truthy_not_null v : truthy v = true -> eq_null v = false.
Proof. by destruct v. Qed.

(** X6. [createServer] accepts every [isProd] other than [undefined] and
    [null], and reads it only through its truthiness: the settings and the
    behaviour of the stack are those of the boolean flag [truthy isProd], so
    a non-empty string or a non-zero number selects production, and [0] or
    the empty string development. *)
Theorem createServer_reads_flag_truthiness
  (v : value) (H : string) (m : option Z) (p : process)
  (Hgiven : eq_null v = false) :
  exists s s' p' h h',
    createServer (mkServerOptions v H m) p = (Ok s, p') /\
    createServer (mkServerOptions (VBool (truthy v)) H m) p = (Ok s', p') /\
    settings (app s) = settings (app s') /\
    appHandler (app s) = Some h /\
    appHandler (app s') = Some h' /\
    forall req w final, h req w final = h' req w final.
Proof.
  unfold createServer, useRateLimit, useLogger, useSecurityHeaders,
    useExpressConfig.
  cbn [isProd host maxRequestsPerSecond]. rewrite Hgiven. cbn [eq_null truthy].
  destruct (truthy v) eqn:E; cbn [negb].
  - eexists _, _, _, _, _. do 2 (split; [reflexivity|]).
    split; [reflexivity|]. do 2 (split; [reflexivity|]).
    intros req w final. cbn [chain].
    unfold securityHeaders, rateLimit, rateLimitHandler.
    cbn [rl_headers rl_handler max truthy]. by rewrite E.
  - eexists _, _, _, _, _. do 2 (split; [reflexivity|]).
    split; [reflexivity|]. do 2 (split; [reflexivity|]).
    intros req w final. cbn [chain].
    unfold securityHeaders. cbn [truthy]. by rewrite E.
Qed.

Lemma createServer_reads_flag_truthiness_witness :
  exists s p' h,
    createServer (mkServerOptions (VStr "false") "feross.org" None)
      initialProcess = (Ok s, p') /\
    settings (app s) !! "json spaces" = Some (VNum 0) /\
    appHandler (app s) = Some h /\
    statusCode (res (h sampleRequest freshWorld (fun w => w))) = 301.
Proof.
  destruct (createServer_reads_flag_truthiness (VStr "false") "feross.org" None
              initialProcess eq_refl)
    as (s & s' & p' & h & h' & Hs & Hs' & Hset & Hh & Hh' & Hsame).
  change (truthy (VStr "false")) with true in Hs', Hh'.
  rewrite createServer_stack in Hs'. injection Hs' as <- _.
  exists s, p', h. split; [exact Hs|].
  split; [rewrite Hset; reflexivity|].
  split; [exact Hh|].
  rewrite Hsame. unfold appHandler in Hh'. cbn in Hh'. injection Hh' as <-.
  reflexivity.
Defined.

(** X7. [serveStatic] likewise accepts every [isProd] other than [undefined]
    and [null]: unless the caller gives a [maxAge], the cache lifetime is one
    year when the flag is truthy and zero when it is falsy. *)
Theorem serveStatic_reads_flag_truthiness
  (path : string) (arg : gmap string value) (v : value)
  (Hflag : arg !! "isProd" = Some v) (Hgiven : eq_null v = false) :
  exists o,
    serveStatic path arg = Ok (ExpressStatic path o) /\
    o !! "maxAge" =
      Some (default (VNum (if truthy v then 31536000000 else 0))
                    (arg !! "maxAge")) /\
    o = delete "isProd" (<["maxAge" := default (VNum (if truthy v then 31536000000 else 0))
                                          (arg !! "maxAge")]> arg).
Proof.
  unfold serveStatic. rewrite Hflag. cbn [from_option]. unfold id at 1 2.
  rewrite Hgiven.
  eexists. split; [reflexivity|].
  assert (Hage : spread {["maxAge" := VNum (if truthy v then 365 * 24 * 60 * 60 * 1000 else 0)]}
                   (delete "isProd" arg) !! "maxAge" =
                 Some (default (VNum (if truthy v then 31536000000 else 0))
                         (arg !! "maxAge"))).
  { rewrite spread_lookup, lookup_delete_ne by done.
    destruct (arg !! "maxAge"); [done|].
    rewrite lookup_singleton_eq. by destruct (truthy v). }
  split; [exact Hage|].
  apply map_eq. intros k.
  destruct (decide (k = "isProd")) as [->|Hk].
  - rewrite spread_lookup, !lookup_delete_eq. by rewrite lookup_singleton_ne.
  - rewrite (lookup_delete_ne _ "isProd" k) by done.
    destruct (decide (k = "maxAge")) as [->|Hk'].
    + by rewrite Hage, lookup_insert_eq.
    + rewrite lookup_insert_ne by done.
      rewrite spread_lookup, lookup_delete_ne by done.
      destruct (arg !! k); [done|]. by rewrite lookup_singleton_ne.
Qed.

Lemma serveStatic_reads_flag_truthiness_witness :
  exists o,
    serveStatic "static" {[ "isProd" := VStr "false" ]} =
      Ok (ExpressStatic "static" o) /\
    o !! "maxAge" = Some (VNum 31536000000).
Proof.
  destruct (serveStatic_reads_flag_truthiness "static"
              {[ "isProd" := VStr "false" ]} (VStr "false"))
    as (o & Ho & Hage & _); [vm_compute; reflexivity | reflexivity |].
  exists o. split; [exact Ho | exact Hage].
Defined.

(** ** The Rollbar bridge over several calls *)

(** X8. With a truthy flag [createRollbar] returns normally and fills the
    slot with a client that holds the caller's token, captures uncaught
    exceptions and unhandled rejections and filters with [checkIgnore];
    [getRollbarHandler] then returns that client's error handler, and the
    formats of the logger are untouched. *)
Theorem createRollbar_installs_client
  (tok v : value) (p : process) (Hprod : truthy v = true) :
  exists client p',
    createRollbar (mkRollbarOptions tok v) p = (Ok (), p') /\
    rollbar_slot p' = Some client /\
    formats p' = formats p /\
    accessToken client = tok /\
    captureUncaught client = true /\
    captureUnhandledRejections client = true /\
    rb_checkIgnore client = checkIgnore /\
    getRollbarHandler p' = RollbarErrorHandler client.
Proof.
  unfold createRollbar. cbn [rb_isProd rb_accessToken].
  rewrite (truthy_not_null _ Hprod), Hprod. cbn [negb].
  eexists _, _. split; [reflexivity|]. by cbn.
Qed.

Lemma createRollbar_installs_client_witness :
  exists client p',
    createRollbar (mkRollbarOptions (VStr "token") (VBool true)) initialProcess =
      (Ok (), p') /\
    rollbar_slot p' = Some client /\
    accessToken client = VStr "token" /\
    getRollbarHandler p' = RollbarErrorHandler client.
Proof.
  destruct (createRollbar_installs_client (VStr "token") (VBool true)
              initialProcess eq_refl)
    as (client & p' & Hrun & Hslot & _ & Htok & _ & _ & _ & Hget).
  exists client, p'. split; [exact Hrun|]. split; [exact Hslot|].
  split; [exact Htok | exact Hget].
Defined.

Lemma createRollbar_no_effect o p :
  truthy (rb_isProd o) = false -> snd (createRollbar o p) = p.
Proof.
  unfold createRollbar. intros ->. by destruct (eq_null _).
Qed.

Lemma createRollbar_slot o p :
  truthy (rb_isProd o) = true ->
  accessToken <$> rollbar_slot (snd (createRollbar o p)) = Some (rb_accessToken o) /\
  formats (snd (createRollbar o p)) = formats p.
Proof.
  unfold createRollbar. intros Ht. by rewrite (truthy_not_null _ Ht), Ht.
Qed.

Lemma createRollbars_snoc calls o p :
  createRollbars (calls ++ [o]) p = snd (createRollbar o (createRollbars calls p)).
Proof. unfold createRollbars. by rewrite foldl_app. Qed.

(** X9. After any sequence of [createRollbar] calls the slot holds the token
    of the last call whose flag was truthy, and is as it was before when
    there was none: a call with a falsy or absent flag, whether it returns or
    throws, never clears or replaces a client, and a later production call
    replaces the earlier one. The formats of the logger are never touched. *)
Theorem createRollbar_last_production_call_wins
  (calls : list rollbarOptions) (p : process) :
  accessToken <$> rollbar_slot (createRollbars calls p) =
    match last (assigning calls) with
    | Some o => Some (rb_accessToken o)
    | None => accessToken <$> rollbar_slot p
    end /\
  formats (createRollbars calls p) = formats p.
Proof.
  induction calls as [|o calls IH] using rev_ind; [done|].
  destruct IH as [IHslot IHfmt].
  rewrite createRollbars_snoc. unfold assigning in *. rewrite filter_app.
  destruct (truthy (rb_isProd o)) eqn:E.
  - rewrite filter_cons_True, filter_nil by done. rewrite last_snoc.
    destruct (createRollbar_slot o (createRollbars calls p) E) as [-> ->].
    by split.
  - rewrite filter_cons_False, filter_nil, app_nil_r by congruence.
    rewrite createRollbar_no_effect by done. by split.
Qed.

(** ** [runMiddleware] and the calls of its callback *)

Lemma callback_after_settled (vs : list value) (q : promise) :
  q <> Pending ->
  foldl (fun p v =>
           if instanceof_Error v then reject v p else resolve v p) q vs = q.
Proof.
  intros Hq. induction vs as [|v vs IH]; [done|]. cbn [foldl].
  replace (if instanceof_Error v then reject v q else resolve v q) with q;
    [exact IH|].
  by destruct q, (instanceof_Error v).
Qed.

(** X10. The promise of [runMiddleware] is settled by the first call of the
    callback alone: later calls and an exception thrown after it change
    nothing. When [fn] throws without having called back, the promise is
    rejected with what was thrown, and when it does neither the promise stays
    pending. *)
Theorem runMiddleware_first_call_settles
  (req : request) (r : response) (fn : callbackStyle)
  (vs : list value) (thrown : option value)
  (Hcalls : forall done p, fn req r done p = calling vs thrown req r done p) :
  runMiddleware req r fn =
    match vs, thrown with
    | v :: _, _ => settled v
    | [], Some e => Rejected e
    | [], None => Pending
    end.
Proof.
  unfold runMiddleware. rewrite Hcalls. unfold calling.
  destruct vs as [|v vs]; [by destruct thrown|].
  cbn [foldl resolve reject].
  rewrite callback_after_settled by (by destruct (instanceof_Error v)).
  unfold settled. by destruct (instanceof_Error v), thrown.
Qed.

Lemma runMiddleware_first_call_witness :
  runMiddleware sampleRequest freshResponse
    (fun _ _ done p =>
       (done (VObj true ∅) (done (VStr "route") p), Some (VStr "late"))) =
    Fulfilled (VStr "route") /\
  runMiddleware sampleRequest freshResponse
    (fun _ _ done p => (p, Some (VStr "boom"))) = Rejected (VStr "boom").
Proof.
  split.
  - apply (runMiddleware_first_call_settles sampleRequest freshResponse
             (fun _ _ done p =>
                (done (VObj true ∅) (done (VStr "route") p), Some (VStr "late")))
             [VStr "route"; VObj true ∅] (Some (VStr "late"))).
    reflexivity.
  - apply (runMiddleware_first_call_settles sampleRequest freshResponse
             (fun _ _ done p => (p, Some (VStr "boom"))) [] (Some (VStr "boom"))).
    reflexivity.
Defined.

(** ** Following the redirect *)


(** ** The two versions of the module *)

(** X12. The version configured from the environment is the explicit one at
    the flag [NODE_ENV === 'production']: the flag is true only for exactly
    that string (an unset variable gives false), [createServer] builds the
    same application and leaves the same process as the explicit
    [createServer] given that flag, whatever [isProd] its own argument
    carries, and [createRollbar] likewise; neither can throw for want of a
    flag. *)
Theorem env_variant_agrees_with_explicit_flag
  (env : option string) (o : serverOptions) (ro : rollbarOptions) (p : process) :
  (EnvVariant.IS_PROD env = true <-> env = Some "production") /\
  createServer
    (mkServerOptions (VBool (EnvVariant.IS_PROD env)) (host o)
       (maxRequestsPerSecond o)) p =
    (Ok (EnvVariant.createServer env o p).1, (EnvVariant.createServer env o p).2) /\
  createRollbar
    (mkRollbarOptions (rb_accessToken ro) (VBool (EnvVariant.IS_PROD env))) p =
    (Ok (), EnvVariant.createRollbar env ro p).
Proof.
  split; [|split].
  - unfold EnvVariant.IS_PROD. destruct env as [s|]; [|done].
    rewrite String.eqb_eq. split; [by intros ->|by intros [= ->]].
  - unfold createServer, EnvVariant.createServer,
      useRateLimit, EnvVariant.useRateLimit,
      useLogger, EnvVariant.useLogger,
      useSecurityHeaders, EnvVariant.useSecurityHeaders,
      useExpressConfig, EnvVariant.useExpressConfig,
      securityHeaders, EnvVariant.securityHeaders,
      rateLimitHandler, EnvVariant.rateLimitHandler,
      EnvVariant.MAX_AGE_HSTS.
    cbn [isProd host maxRequestsPerSecond eq_null truthy].
    by destruct (EnvVariant.IS_PROD env).
  - unfold createRollbar, EnvVariant.createRollbar.
    cbn [rb_isProd rb_accessToken eq_null truthy].
    by destruct (EnvVariant.IS_PROD env).
Qed.

(** X13. In the version configured from the environment [serveStatic] never
    throws and spreads the caller's options whole: an [isProd] among them is
    handed on to the file server, unlike in the explicit version, which
    strips it. The default [maxAge] follows the environment, the caller's
    [maxAge] still wins, and with the removed key apart the result is that of
    the explicit version whenever the caller's [isProd] is the environment's
    flag; without [isProd] the explicit version throws. *)
Theorem env_serveStatic_hands_isProd_on
  (env : option string) (path : string) (opts : gmap string value) :
  exists o,
    EnvVariant.serveStatic env path opts = ExpressStatic path o /\
    o !! "isProd" = opts !! "isProd" /\
    o !! "maxAge" =
      Some (default (VNum (if EnvVariant.IS_PROD env then 31536000000 else 0))
                    (opts !! "maxAge")) /\
    (forall k, k <> "maxAge" -> o !! k = opts !! k) /\
    (opts !! "isProd" = Some (VBool (EnvVariant.IS_PROD env)) ->
     serveStatic path opts = Ok (ExpressStatic path (delete "isProd" o))) /\
    (opts !! "isProd" = None -> serveStatic path opts = Throw missingIsProd).
Proof.
  unfold EnvVariant.serveStatic, EnvVariant.MAX_AGE_STATIC.
  eexists. split; [reflexivity|].
  assert (Hother : forall k, k <> "maxAge" ->
            spread {["maxAge" :=
                       VNum (if EnvVariant.IS_PROD env
                             then 365 * 24 * 60 * 60 * 1000 else 0)]} opts !! k =
            opts !! k).
  { intros k Hk. rewrite spread_lookup.
    destruct (opts !! k); [done|]. by rewrite lookup_singleton_ne. }
  split; [by apply Hother|]. split; [|split; [exact Hother|split]].
  - rewrite spread_lookup. destruct (opts !! "maxAge"); [done|].
    rewrite lookup_singleton_eq. by destruct (EnvVariant.IS_PROD env).
  - intros Hflag. unfold serveStatic. rewrite Hflag.
    cbn [from_option eq_null truthy]. unfold id at 1 2. cbn [eq_null truthy].
    do 2 f_equal. apply map_eq. intros k. rewrite !spread_lookup.
    destruct (decide (k = "isProd")) as [->|Hk].
    + rewrite !lookup_delete_eq. by rewrite lookup_singleton_ne.
    + rewrite !lookup_delete_ne by done. by rewrite spread_lookup.
  - intros Hnone. unfold serveStatic. by rewrite Hnone.
Qed.

Lemma env_serveStatic_witness :
  exists o,
    EnvVariant.serveStatic (Some "production") "static"
      {[ "isProd" := VBool true; "etag" := VBool false ]} =
      ExpressStatic "static" o /\
    o !! "isProd" = Some (VBool true) /\
    serveStatic "static" {[ "isProd" := VBool true; "etag" := VBool false ]} =
      Ok (ExpressStatic "static" (delete "isProd" o)) /\
    serveStatic "static" {[ "etag" := VBool false ]} = Throw missingIsProd.
Proof.
  destruct (env_serveStatic_hands_isProd_on (Some "production") "static"
              {[ "isProd" := VBool true; "etag" := VBool false ]})
    as (o & Ho & Hflag & _ & _ & Hsame & _).
  destruct (env_serveStatic_hands_isProd_on (Some "production") "static"
              {[ "etag" := VBool false ]})
    as (_ & _ & _ & _ & _ & _ & Hthrow).
  exists o. split; [exact Ho|].
  split; [rewrite Hflag; vm_compute; reflexivity|].
  split; [apply Hsame; vm_compute; reflexivity|].
  apply Hthrow. vm_compute. reflexivity.
Defined.
